(** * AutoViz: a shallow embedding of [index.py]

    The script loads a table, sorts its columns into three buckets,
    draws a fixed battery of charts and serialises them into a ZIP
    archive and an HTML report.  This file embeds the four functions of
    the script ([load_data], [analyze_data], [generate_visualizations],
    [create_zip_archive]) and the report loop of the main block
    ([html_report]), and proves the properties the specification states
    about them.

    Conventions.
    - A Python [str] is a Rocq [string]; a column label that is not
      ASCII is its UTF-8 byte sequence, on which [endswith] and
      [replace] with ASCII arguments act the same way.
    - Python's unbounded [int] counters are [nat].
    - A raised exception is the [Raise] branch of [Result]; the
      generator passes its locals and the page it writes to from one
      plotting block to the next ([GenState]).
    - Calls into pandas, seaborn, matplotlib and streamlit are not code of
      the script.  The ones whose result the script branches on are
      modelled after their documented behaviour (section "pandas");
      the plotting calls are recorded as [Figure] descriptions; the
      file parsers and the PNG renderer are section variables. *)

From Stdlib Require Import Ascii DecimalString DecimalNat.
From stdpp Require Import base decidable option list sorting strings.

(** ** Exceptions and results *)

(** The exceptions the embedded code can meet.  All of them are
    subclasses of Python's [Exception]; [LibraryError] stands for any
    other [Exception] raised inside a library call, with its [str]. *)
Inductive exn : Type :=
| ZeroDivisionError
| KeyError (key : string)
| IndexError
| StreamlitAPIException (msg : string)
| LibraryError (msg : string).

(** [str(e)] *)
Definition exn_str (e : exn) : string :=
  match e with
  | ZeroDivisionError => "division by zero"
  | KeyError k => "'" +:+ k +:+ "'"
  | IndexError => "list index out of range"
  | StreamlitAPIException m => m
  | LibraryError m => m
  end.

Inductive Result (A : Type) : Type :=
| Ok (a : A)
| Raise (e : exn).
Arguments Ok {A} a.
Arguments Raise {A} e.

Definition rbind {A B} (r : Result A) (k : A -> Result B) : Result B :=
  match r with
  | Ok a => k a
  | Raise e => Raise e
  end.

Global Instance Result_ret : MRet Result := @Ok.
Global Instance Result_bind : MBind Result := fun A B k r => rbind r k.

(** [for x in xs: acc = body(acc, x)], stopping at the first exception. *)
Fixpoint for_fold {A S} (body : S -> A -> Result S) (xs : list A) (acc : S)
  : Result S :=
  match xs with
  | [] => Ok acc
  | x :: rest => acc' ← body acc x; for_fold body rest acc'
  end.

(** ** pandas: series, frames, dtype predicates *)

(** The dtypes pandas gives to a column. *)
Inductive Dtype : Type :=
| dt_bool | dt_int | dt_uint | dt_float | dt_complex
| dt_datetime64 | dt_datetime64tz
| dt_timedelta64 | dt_period
| dt_category | dt_string | dt_object.

Global Instance Dtype_eq_dec : EqDecision Dtype.
Proof. solve_decision. Defined.

(** Cell values.  Only equality of cells is ever used (by [nunique] and
    [value_counts]); a missing value (NaN, None, NaT) is [None] in the
    series. *)
Inductive Scalar : Type :=
| SInt (z : Z)
| SStr (s : string)
| SBool (b : bool)
| STime (ns : Z).

Global Instance Scalar_eq_dec : EqDecision Scalar.
Proof. solve_decision. Defined.

Record Series : Type := mkSeries {
  dtype : Dtype;
  values : list (option Scalar)
}.

Global Instance Series_eq_dec : EqDecision Series.
Proof. solve_decision. Defined.

(** A frame is its labelled columns in column order.  [read_csv] and
    [read_excel] make the labels of a loaded frame pairwise distinct
    (a repeated header [a] is renamed [a.1]); the theorems that need
    this assume [unique_labels]. *)
Abbreviation DataFrame := (list (string * Series)).

(** [df.columns] *)
Definition columns (df : DataFrame) : list string := df.*1.

Definition unique_labels (df : DataFrame) : Prop := NoDup (columns df).

(** [len(df)]: the number of rows. *)
Definition len_df (df : DataFrame) : nat :=
  match df with
  | [] => 0
  | (_, s) :: _ => length (values s)
  end.

(** [df[col]] for a single label. *)
Fixpoint getitem (df : DataFrame) (col : string) : Result Series :=
  match df with
  | [] => Raise (KeyError col)
  | (name, s) :: rest => if decide (name = col) then Ok s else getitem rest col
  end.

(** [df[cols]] for a list of labels: the sub-frame, in the order asked. *)
Fixpoint getitems (df : DataFrame) (cols : list string) : Result DataFrame :=
  match cols with
  | [] => Ok []
  | c :: rest =>
      s ← getitem df c;
      sub ← getitems df rest;
      Ok ((c, s) :: sub)
  end.

(** [df.set_index(col)]: the column becomes the index and leaves the
    columns; the result pairs the index with the remaining frame. *)
Definition set_index (df : DataFrame) (col : string)
  : Result (Series * DataFrame) :=
  idx ← getitem df col;
  Ok (idx, filter (fun p => p.1 ≠ col) df).

(** [pd.api.types.is_numeric_dtype]: integer, unsigned, floating, complex
    and boolean dtypes. *)
Definition is_numeric_dtype (s : Series) : bool :=
  match dtype s with
  | dt_bool | dt_int | dt_uint | dt_float | dt_complex => true
  | _ => false
  end.

(** [pd.api.types.is_datetime64_any_dtype]: naive and timezone-aware
    timestamps. *)
Definition is_datetime64_any_dtype (s : Series) : bool :=
  match dtype s with
  | dt_datetime64 | dt_datetime64tz => true
  | _ => false
  end.

(** The non-null cells of a series. *)
Definition dropna (s : Series) : list Scalar := omap id (values s).

(** [Series.nunique()]: the number of distinct non-null values. *)
Definition nunique (s : Series) : nat := length (remove_dups (dropna s)).

(** ** Column classifier *)

Record Buckets : Type := mkBuckets {
  numeric_cols : list string;
  categorical_cols : list string;
  datetime_cols : list string
}.

(** The body of the loop of [analyze_data], for one label. *)
Definition analyze_col (df : DataFrame) (acc : Buckets) (col : string)
  : Result Buckets :=
  s1 ← getitem df col;
  if is_numeric_dtype s1 then
    Ok (mkBuckets (numeric_cols acc ++ [col])
                  (categorical_cols acc) (datetime_cols acc))
  else
    s2 ← getitem df col;
    if is_datetime64_any_dtype s2 then
      Ok (mkBuckets (numeric_cols acc) (categorical_cols acc)
                    (datetime_cols acc ++ [col]))
    else
      s3 ← getitem df col;
      if nunique s3 <=? 20 then
        Ok (mkBuckets (numeric_cols acc) (categorical_cols acc ++ [col])
                      (datetime_cols acc))
      else Ok acc.

Definition analyze_data (df : DataFrame) : Result Buckets :=
  for_fold (analyze_col df) (columns df) (mkBuckets [] [] []).

(** ** pandas: value counts *)

(** How often a value occurs among the non-null cells of a series. *)
Definition frequency (s : Series) (v : Scalar) : nat :=
  length (filter (fun w => w = v) (dropna s)).

(** [v] is at least as frequent as [w]. *)
Definition at_least_as_frequent (s : Series) (v w : Scalar) : Prop :=
  frequency s w ≤ frequency s v.

Global Instance at_least_as_frequent_dec s : RelDecision (at_least_as_frequent s).
Proof. intros v w. unfold at_least_as_frequent. apply _. Defined.

(** [Series.value_counts().index]: the distinct non-null values, the most
    frequent one first. *)
Definition value_counts_index (s : Series) : list Scalar :=
  merge_sort (at_least_as_frequent s) (remove_dups (dropna s)).

(** ** Plot artifacts *)

Inductive PlotKind : Type :=
| histogram | boxplot | barplot | heatmap | pairplot | timeseries.

Global Instance PlotKind_eq_dec : EqDecision PlotKind.
Proof. solve_decision. Defined.

(** The kind tag as the string the script writes. *)
Definition kind_tag (k : PlotKind) : string :=
  match k with
  | histogram => "histogram"
  | boxplot => "boxplot"
  | barplot => "barplot"
  | heatmap => "heatmap"
  | pairplot => "pairplot"
  | timeseries => "timeseries"
  end.

(** Bars of a count plot: [x=col] grows them upwards, [y=col] sideways. *)
Inductive Orient : Type := Vertical | Horizontal.

(** A figure is the record of the plotting call that drew it. *)
Inductive Figure : Type :=
| HistPlot (data : Series) (kde : bool) (title xlabel : string)
| BoxPlot (data : Series) (title : string)
| CountPlot (orient : Orient) (col : string) (data : DataFrame)
            (order : list Scalar) (title xlabel : string)
| HeatMap (corr_of : DataFrame) (annot : bool) (cmap title : string)
| PairPlot (sample_of : DataFrame) (sample_size : nat)
| LinePlot (index data : Series) (title ylabel : string).

(** [(plot_type, fig, col)] *)
Definition Artifact : Type := PlotKind * Figure * string.

Definition art_kind (a : Artifact) : PlotKind := a.1.1.
Definition art_fig (a : Artifact) : Figure := a.1.2.
Definition art_label (a : Artifact) : string := a.2.

(** The title of a figure, where the call sets one. *)
Definition fig_title (f : Figure) : option string :=
  match f with
  | HistPlot _ _ t _ | BoxPlot _ t | CountPlot _ _ _ _ t _
  | HeatMap _ _ _ t | LinePlot _ _ t _ => Some t
  | PairPlot _ _ => None
  end.

(** ** Visualization generator *)

(** [str(n)] for a counter. *)
Definition str_of_nat (n : nat) : string :=
  NilEmpty.string_of_uint (Nat.to_uint n).

(** What the generator writes to the page. *)
Inductive UiEvent : Type :=
| UiProgressBar              (* [st.progress(0)] *)
| UiPlaceholder              (* [st.empty()] *)
| UiProgress (num den : nat) (* [progress_bar.progress(num/den)] *)
| UiStatus (text : string)   (* [status_text.text(...)] *)
| UiProgressEmpty            (* [progress_bar.empty()] *)
| UiStatusEmpty.             (* [status_text.empty()] *)

(** The locals of [generate_visualizations] that change, and the page. *)
Record GenState : Type := mkGenState {
  plots : list Artifact;
  plot_counter : nat;
  ui : list UiEvent
}.

(** [progress_bar.progress(num/den)]: the division raises when [den] is
    zero, and streamlit refuses a value above 1. *)
Definition progress (num den : nat) (page : list UiEvent)
  : Result (list UiEvent) :=
  if den =? 0 then Raise ZeroDivisionError
  else if den <? num then
    Raise (StreamlitAPIException "Progress Value has invalid value [0.0, 1.0]")
  else Ok (page ++ [UiProgress num den]).

Definition status_line (counter total : nat) : string :=
  "Generated " +:+ str_of_nat counter +:+ "/" +:+ str_of_nat total
  +:+ " visualizations...".

(** The tail every plotting block shares: append the artifact, count
    it, report progress. *)
Definition emit (total_plots : nat) (a : Artifact) (st : GenState)
  : Result GenState :=
  let plots' := plots st ++ [a] in
  let counter' := plot_counter st + 1 in
  page ← progress counter' total_plots (ui st);
  Ok (mkGenState plots' counter'
        (page ++ [UiStatus (status_line counter' total_plots)])).

Definition histogram_of (df : DataFrame) (col : string) : Result Artifact :=
  s ← getitem df col;
  Ok (histogram, HistPlot s true ("Distribution of " +:+ col) col, col).

Definition boxplot_of (df : DataFrame) (col : string) : Result Artifact :=
  s ← getitem df col;
  Ok (boxplot, BoxPlot s ("Boxplot of " +:+ col), col).

Definition barplot_of (df : DataFrame) (col : string) : Result Artifact :=
  s ← getitem df col;
  Ok (barplot,
      CountPlot Horizontal col df (value_counts_index s)
                ("Distribution of " +:+ col) "Count",
      col).

Definition heatmap_of (df : DataFrame) (numeric_cols : list string)
  : Result Artifact :=
  sub ← getitems df numeric_cols;
  Ok (heatmap, HeatMap sub true "coolwarm" "Feature Correlation Matrix",
      "Correlation").

Definition pairplot_of (df : DataFrame) (numeric_cols : list string)
  : Result Artifact :=
  sub ← getitems df numeric_cols;
  Ok (pairplot, PairPlot sub (500 `min` len_df df), "Pairwise Relationships").

Definition timeseries_of (df : DataFrame) (num_col date_col : string)
  : Result Artifact :=
  indexed ← set_index df date_col;
  s ← getitem indexed.2 num_col;
  Ok (timeseries,
      LinePlot indexed.1 s (num_col +:+ " over Time") num_col,
      date_col +:+ " & " +:+ num_col).

(** [numeric_cols[0]] *)
Definition first_of (cols : list string) : Result string :=
  match cols with
  | [] => Raise IndexError
  | c :: _ => Ok c
  end.

(** [len(numeric_cols)*2 + len(categorical_cols)
     + len(datetime_cols)*min(1, len(numeric_cols))], plus 2 when there
    is more than one numeric column. *)
Definition total_plots (numeric categorical datetime : list string) : nat :=
  let total :=
    length numeric * 2 + length categorical
    + length datetime * (1 `min` length numeric) in
  if 1 <? length numeric then total + 2 else total.

(** A plotting loop: one artifact per column. *)
Definition plot_each (total : nat) (mk : string -> Result Artifact)
    (cols : list string) (st : GenState) : Result GenState :=
  for_fold (fun st col => a ← mk col; emit total a st) cols st.

(** The function with its locals and the page trace. *)
Definition generate_state (df : DataFrame)
    (numeric categorical datetime : list string) : Result GenState :=
  let st := mkGenState [] 0 [UiProgressBar; UiPlaceholder] in
  let total := total_plots numeric categorical datetime in
  st ← plot_each total (histogram_of df) numeric st;
  st ← plot_each total (boxplot_of df) numeric st;
  st ← plot_each total (barplot_of df) categorical st;
  st ← (if 1 <? length numeric
        then a ← heatmap_of df numeric; emit total a st
        else Ok st);
  st ← (if 1 <? length numeric
        then a ← pairplot_of df numeric; emit total a st
        else Ok st);
  st ← for_fold (fun st date_col =>
                   if 0 <? length numeric
                   then num_col ← first_of numeric;
                        a ← timeseries_of df num_col date_col;
                        emit total a st
                   else Ok st) datetime st;
  Ok (mkGenState (plots st) (plot_counter st)
                 (ui st ++ [UiProgressEmpty; UiStatusEmpty])).

Definition generate_visualizations (df : DataFrame)
    (numeric categorical datetime : list string) : Result (list Artifact) :=
  st ← generate_state df numeric categorical datetime;
  Ok (plots st).

(** ** Data loader *)

Record UploadedFile : Type := mkUploadedFile {
  file_name : string;
  file_bytes : string
}.

(** [s.endswith(suffix)]: some tail of [s] is [suffix]. *)
Fixpoint endswith (s suffix : string) : bool :=
  if bool_decide (s = suffix) then true
  else match s with
       | EmptyString => false
       | String _ rest => endswith rest suffix
       end.

(** [try: body except Exception as e: handler(e)].  Every [exn] is an
    [Exception], so the handler sees whatever the body raises. *)
Definition try_except {A} (body : Result A) (handler : exn -> Result A)
  : Result A :=
  match body with
  | Ok a => Ok a
  | Raise e => handler e
  end.

(** What the loader shows on the page. *)
Inductive PageMessage : Type :=
| StError (text : string).

Definition unsupported_message : string :=
  "Unsupported file format. Please upload a CSV or Excel file.".

Section Loader.
(** [pd.read_csv] and [pd.read_excel] (first sheet by default): the
    table, or the exception the parser raises. *)
Variable read_csv : UploadedFile -> Result DataFrame.
Variable read_excel : UploadedFile -> Result DataFrame.

(** The result pairs the returned value ([None] for Python's [None])
    with the messages shown. *)
Definition load_data (uploaded_file : UploadedFile)
  : Result (option DataFrame * list PageMessage) :=
  try_except
    (if endswith (file_name uploaded_file) ".csv" then
       df ← read_csv uploaded_file; Ok (Some df, [])
     else if endswith (file_name uploaded_file) ".xlsx"
             || endswith (file_name uploaded_file) ".xls" then
       df ← read_excel uploaded_file; Ok (Some df, [])
     else Ok (None, [StError unsupported_message]))
    (fun e => Ok (None, [StError ("Error loading file: " +:+ exn_str e)])).
End Loader.

(** ** Archive builder *)

(** [s.replace(old, new)] for one-character arguments. *)
Fixpoint replace_char (old new : ascii) (s : string) : string :=
  match s with
  | EmptyString => EmptyString
  | String c rest =>
      String (if Ascii.eqb c old then new else c) (replace_char old new rest)
  end.

(** [f"plot_{i+1}_{plot_type}_{col.replace(' ', '_')}.png"] *)
Definition entry_name (i : nat) (plot_type : PlotKind) (col : string) : string :=
  "plot_" +:+ str_of_nat (i + 1) +:+ "_" +:+ kind_tag plot_type +:+ "_"
  +:+ replace_char " " "_" col +:+ ".png".

(** [base64.b64encode(...).decode()] *)
Definition b64_alphabet : list ascii :=
  String.list_ascii_of_string
    "ABCDEFGHIJKLMNOPQRSTUVWXYZabcdefghijklmnopqrstuvwxyz0123456789+/".

Definition b64_digit (n : N) : ascii := nth (N.to_nat n) b64_alphabet "="%char.

Fixpoint b64_groups (bytes : list N) : list ascii :=
  match bytes with
  | [] => []
  | [a] =>
      [b64_digit (a / 4); b64_digit ((a mod 4) * 16); "="; "="]%char%N
  | [a; b] =>
      [b64_digit (a / 4); b64_digit ((a mod 4) * 16 + b / 16);
       b64_digit ((b mod 16) * 4); "="]%char%N
  | a :: b :: c :: rest =>
      ([b64_digit (a / 4); b64_digit ((a mod 4) * 16 + b / 16);
        b64_digit ((b mod 16) * 4 + c / 64); b64_digit (c mod 64)]%N)
      ++ b64_groups rest
  end.

Definition b64encode (data : string) : string :=
  String.string_of_list_ascii (b64_groups (N_of_ascii <$> (String.list_ascii_of_string data))).

(** The double-quote character of the [<img>] attribute. *)
Definition dquote : string := String "034" EmptyString.

Section Archive.
(** [fig.savefig(buffer, format='png', bbox_inches='tight')] followed by
    [buffer.getvalue()]: the PNG bytes of a figure. *)
Variable savefig : Figure -> string.

(** The entries written to the archive, in writing order: name and
    content. *)
Definition create_zip_archive (plots : list Artifact)
  : list (string * string) :=
  imap (fun i a => (entry_name i (art_kind a) (art_label a),
                    savefig (art_fig a))) plots.

Definition h2_of (a : Artifact) : string :=
  "<h2>" +:+ art_label a +:+ " (" +:+ kind_tag (art_kind a) +:+ ")</h2>".

Definition img_of (a : Artifact) : string :=
  "<img src=" +:+ dquote +:+ "data:image/png;base64,"
  +:+ b64encode (savefig (art_fig a)) +:+ dquote +:+ "><br>".

(** The report loop of the main block. *)
Definition html_report (plots : list Artifact) : string :=
  fold_left (fun html a => (html +:+ h2_of a) +:+ img_of a) plots
            "<html><body><h1>AutoViz Report</h1>"
  +:+ "</body></html>".

End Archive.


(** [s.startswith(pat)] *)
Fixpoint startswith (s pat : string) {struct pat} : bool :=
  match pat, s with
  | EmptyString, _ => true
  | String _ _, EmptyString => false
  | String a pat', String b s' => Ascii.eqb a b && startswith s' pat'
  end.


(** The character [c] does not occur in [s]. *)
Fixpoint free_of (c : ascii) (s : string) : bool :=
  match s with
  | EmptyString => true
  | String d rest => negb (Ascii.eqb d c) && free_of c rest
  end.

(** ** The specification's wording, for comparison *)

(** A column is numeric when its inferred dtype is numeric. *)
Definition spec_numeric (s : Series) : Prop := is_numeric_dtype s.

(** Otherwise it is a datetime column when its dtype is a date/time type. *)
Definition spec_datetime (s : Series) : Prop :=
  ¬ is_numeric_dtype s ∧ is_datetime64_any_dtype s.

(** Otherwise it is categorical when it has at most 20 distinct non-null
    values. *)
Definition spec_categorical (s : Series) : Prop :=
  ¬ is_numeric_dtype s ∧ ¬ is_datetime64_any_dtype s ∧ nunique s ≤ 20.

Global Instance spec_numeric_dec s : Decision (spec_numeric s).
Proof. unfold spec_numeric. apply _. Defined.
Global Instance spec_datetime_dec s : Decision (spec_datetime s).
Proof. unfold spec_datetime. apply _. Defined.
Global Instance spec_categorical_dec s : Decision (spec_categorical s).
Proof. unfold spec_categorical. apply _. Defined.

(** The labels of the columns of [df] that satisfy [P], in column order. *)
Definition labels_where (P : Series -> Prop) `{!∀ s, Decision (P s)}
    (df : DataFrame) : list string :=
  (filter (fun p => P p.2) df).*1.











(** ASCII lower case, to speak of case variants of an extension. *)
Definition ascii_lower (c : ascii) : ascii :=
  let n := nat_of_ascii c in
  if (65 <=? n) && (n <=? 90) then ascii_of_nat (n + 32) else c.

Fixpoint str_lower (s : string) : string :=
  match s with
  | EmptyString => EmptyString
  | String c rest => String (ascii_lower c) (str_lower rest)
  end.

Definition supported_extensions : list string := [".csv"; ".xlsx"; ".xls"].

(** [v] is [ext] up to case, and not [ext] itself. *)
Definition case_variant (ext v : string) : Prop :=
  str_lower v = ext ∧ v ≠ ext.

(** ** Main block: display and downloads *)

(** ASCII upper case. *)
Definition ascii_upper (c : ascii) : ascii :=
  let n := nat_of_ascii c in
  if (97 <=? n) && (n <=? 122) then ascii_of_nat (n - 32) else c.

(** [s.capitalize()]: first character upper case, the rest lower case. *)
Definition capitalize (s : string) : string :=
  match s with
  | EmptyString => EmptyString
  | String c rest =>
      String (ascii_upper c) (str_lower rest)
  end.

(** [f'<p class="plot-title">{text}</p>'] *)
Definition plot_title (text : string) : string :=
  "<p class=" +:+ dquote +:+ "plot-title" +:+ dquote +:+ ">" +:+ text
  +:+ "</p>".

(** [plot_type in [...]] *)
Definition kind_in (a : Artifact) (tags : list string) : Prop :=
  kind_tag (art_kind a) ∈ tags.

Global Instance kind_in_dec a tags : Decision (kind_in a tags).
Proof. unfold kind_in. apply _. Defined.

(** The loop of the "Distributions" tab, from index [i] on: the
    artifacts it shows, each with the index of the page column
    ([cols[i % 2]]) it is put in. *)
Fixpoint distribution_tab_from (i : nat) (plots : list Artifact)
  : list (nat * Artifact) :=
  match plots with
  | [] => []
  | a :: rest =>
      (if decide (kind_in a ["histogram"; "boxplot"; "barplot"])
       then [(i mod 2, a)] else [])
      ++ distribution_tab_from (S i) rest
  end.

Definition distribution_tab (plots : list Artifact) : list (nat * Artifact) :=
  distribution_tab_from 0 plots.

(** The artifacts shown in the "Relationships" tab. *)
Definition relationship_tab (plots : list Artifact) : list Artifact :=
  filter (fun a => kind_in a ["heatmap"; "pairplot"]) plots.

(** The artifacts shown in the "Time Series" tab. *)
Definition timeseries_tab (plots : list Artifact) : list Artifact :=
  filter (fun a => kind_tag (art_kind a) = "timeseries") plots.

(** What is drawn for an artifact: the page column (first tab only),
    the title paragraph and the figure. *)
Record TabItem : Type := mkTabItem {
  item_column : option nat;
  item_title : string;
  item_fig : Figure
}.

Definition titled_item (column : option nat) (a : Artifact) : TabItem :=
  mkTabItem column (plot_title (art_label a)) (art_fig a).

(** The item of the "All Plots" tab:
    [f'{col_name} ({plot_type.capitalize()})'] as title. *)
Definition captioned_item (a : Artifact) : TabItem :=
  mkTabItem None
    (plot_title (art_label a +:+ " (" +:+ capitalize (kind_tag (art_kind a))
                 +:+ ")"))
    (art_fig a).

(** [df.head()]: the first five rows. *)
Definition head_df (df : DataFrame) : DataFrame :=
  (fun p => (p.1, mkSeries (dtype p.2) (take 5 (values p.2)))) <$> df.

Inductive Download : Type :=
| ZipData (entries : list (string * string))
| HtmlData (document : string).

(** What the main block puts on the page, in order. *)
Inductive AppEvent : Type :=
| EvError (text : string)
| EvSuccess (text : string)
| EvInfo (text : string)
| EvImage (url caption : string)
| EvDataframe (expander : string) (df : DataFrame)
| EvMetric (label : string) (value : nat)
| EvButton (label : string)
| EvGenerator (page : list UiEvent)
| EvBalloons
| EvTab (name subheader : string) (items : list TabItem)
| EvMarkdown (text : string)
| EvSubheader (text : string)
| EvDownload (label file_name mime : string) (data : Download).

Definition placeholder_image : string :=
  "https://images.unsplash.com/photo-1551288049-bebda4e38f71?ixlib=rb-4.0.3&auto=format&fit=crop&w=1200&q=80".

Section App.
Variable read_csv : UploadedFile -> Result DataFrame.
Variable read_excel : UploadedFile -> Result DataFrame.
Variable savefig : Figure -> string.

(** What follows a click on "Generate Visualizations". *)
Definition results_page (df : DataFrame) (b : Buckets)
  : Result (list AppEvent) :=
  st ← generate_state df (numeric_cols b) (categorical_cols b)
         (datetime_cols b);
  Ok [EvGenerator (ui st);
      EvSuccess "Visualization complete!";
      EvBalloons;
      EvTab "Distributions" "Distribution Plots"
        ((fun p => titled_item (Some p.1) p.2)
           <$> distribution_tab (plots st));
      EvTab "Relationships" "Relationship Analysis"
        (titled_item None <$> relationship_tab (plots st));
      EvTab "Time Series" "Time Series Analysis"
        (titled_item None <$> timeseries_tab (plots st));
      EvTab "All Plots" "All Generated Visualizations"
        (captioned_item <$> plots st);
      EvMarkdown "---";
      EvSubheader "Download Results";
      EvDownload "Download All Visualizations (ZIP)" "autoviz_report.zip"
        "application/zip" (ZipData (create_zip_archive savefig (plots st)));
      EvDownload "Download HTML Report" "autoviz_report.html" "text/html"
        (HtmlData (html_report savefig (plots st)))].

(** The main block, from [if uploaded_file is not None] on.
    [clicked] is the value of [st.button] in this run. *)
Definition main_block (uploaded_file : option UploadedFile) (clicked : bool)
  : Result (list AppEvent) :=
  match uploaded_file with
  | Some f =>
      loaded ← load_data read_csv read_excel f;
      let shown :=
        (fun m => match m with StError text => EvError text end)
          <$> loaded.2 in
      match loaded.1 with
      | Some df =>
          b ← analyze_data df;
          let summary :=
            shown
            ++ [EvSuccess ("Successfully loaded dataset with "
                           +:+ str_of_nat (len_df df) +:+ " rows and "
                           +:+ str_of_nat (length df) +:+ " columns");
                EvDataframe "View Raw Data" (head_df df);
                EvMetric "Numerical Columns" (length (numeric_cols b));
                EvMetric "Categorical Columns"
                         (length (categorical_cols b));
                EvMetric "Date/Time Columns" (length (datetime_cols b));
                EvButton "Generate Visualizations"] in
          if clicked then
            results ← results_page df b;
            Ok (summary ++ results)
          else Ok summary
      | None => Ok shown
      end
  | None =>
      Ok [EvInfo "Please upload a dataset to get started";
          EvImage placeholder_image "Data Visualization Made Simple"]
  end.
End App.



(** A column the classifier drops: neither numeric nor datetime, with
    more than 20 distinct non-null values. *)
Definition high_cardinality (s : Series) : Prop :=
  ¬ is_numeric_dtype s ∧ ¬ is_datetime64_any_dtype s ∧ 20 < nunique s.

Global Instance high_cardinality_dec s : Decision (high_cardinality s).
Proof. unfold high_cardinality. apply _. Defined.


(** The events that show generated results. *)
Definition is_result (e : AppEvent) : Prop :=
  match e with
  | EvGenerator _ | EvTab _ _ _ | EvDownload _ _ _ _ => True
  | _ => False
  end.

(** The events that report a failure. *)
Definition is_error (e : AppEvent) : Prop :=
  match e with
  | EvError _ => True
  | _ => False
  end.

(** ** Sample data *)

Definition sample_age : Series :=
  mkSeries dt_int [Some (SInt 31); Some (SInt 45); None; Some (SInt 31)].
Definition sample_income : Series :=
  mkSeries dt_float [Some (SInt 10); Some (SInt 20); Some (SInt 30); None].
Definition sample_city : Series :=
  mkSeries dt_object
    [Some (SStr "Lahore"); Some (SStr "Karachi"); Some (SStr "Karachi"); None].
Definition sample_signup_date : Series :=
  mkSeries dt_datetime64
    [Some (STime 1); Some (STime 2); Some (STime 3); Some (STime 4)].

(** A text column with 25 distinct values. *)
Definition sample_notes : Series :=
  mkSeries dt_object ((fun i => Some (SInt (Z.of_nat i))) <$> seq 0 25).


Definition dates_only_df : DataFrame := [("signup_date", sample_signup_date)].

Definition sample_df : DataFrame :=
  [("age", sample_age); ("city", sample_city);
   ("signup_date", sample_signup_date); ("notes", sample_notes);
   ("income", sample_income)].



(** A stand-in renderer for the examples: the title of the figure. *)
Definition sample_savefig (f : Figure) : string :=
  default "" (fig_title f).

Definition sample_read_csv (f : UploadedFile) : Result DataFrame :=
  if bool_decide (file_bytes f = "") then
    Raise (LibraryError "No columns to parse from file")
  else Ok sample_df.

Definition sample_read_excel (f : UploadedFile) : Result DataFrame :=
  Raise (LibraryError "Excel file format cannot be determined").

(** * Proofs *)

(** ** Strings: proofs *)

Lemma str_app_cons c s t : String c s +:+ t = String c (s +:+ t).
Proof. reflexivity. Qed.

Lemma str_app_nil_l s : "" +:+ s = s.
Proof. reflexivity. Qed.

Lemma str_app_assoc s t u : (s +:+ t) +:+ u = s +:+ (t +:+ u).
Proof. induction s as [|c s IH]; [done|]. by rewrite !str_app_cons, IH. Qed.

Lemma str_length_app s t :
  String.length (s +:+ t) = String.length s + String.length t.
Proof. induction s as [|c s IH]; [done|]. rewrite str_app_cons. simpl. lia. Qed.

Lemma endswith_unfold s suffix :
  endswith s suffix =
  if bool_decide (s = suffix) then true
  else match s with
       | EmptyString => false
       | String _ rest => endswith rest suffix
       end.
Proof. by destruct s. Qed.

(** [endswith] holds exactly of the strings with that tail. *)
Lemma endswith_spec s suffix :
  endswith s suffix = true <-> exists p, s = p +:+ suffix.
Proof.
  induction s as [|c s IH]; rewrite endswith_unfold; case_bool_decide.
  - split; [by exists ""|done].
  - split; [done|]. intros [[|d p] Hp].
    + destruct (H Hp).
    + by rewrite str_app_cons in Hp.
  - split; [by exists ""|done].
  - rewrite IH. split.
    + intros [p ->]. by exists (String c p).
    + intros [[|d p] Hp]; [destruct (H Hp)|].
      rewrite str_app_cons in Hp. injection Hp as _ ->. by exists p.
Qed.

(** Two tails of one string: one of them is a tail of the other. *)
Lemma str_app_eq_tails p q v t :
  p +:+ v = q +:+ t -> (exists r, t = r +:+ v) ∨ (exists r, v = r +:+ t).
Proof.
  revert q. induction p as [|a p IH]; intros q Heq.
  - right. by exists q.
  - destruct q as [|b q].
    + left. exists (String a p). exact (eq_sym Heq).
    + rewrite !str_app_cons in Heq. injection Heq as _ Heq. by apply (IH q).
Qed.

Lemma str_lower_app s t : str_lower (s +:+ t) = str_lower s +:+ str_lower t.
Proof.
  induction s as [|c s IH]; [done|]. rewrite str_app_cons. simpl.
  by rewrite IH.
Qed.

Lemma str_lower_length s : String.length (str_lower s) = String.length s.
Proof. induction s; simpl; auto. Qed.

Lemma str_app_eq_self r s : r +:+ s = s -> r = "".
Proof.
  intros Heq. apply (f_equal String.length) in Heq.
  rewrite str_length_app in Heq. destruct r; [done|]. simpl in Heq. lia.
Qed.

(** The supported extensions are lower case, and none is a tail of
    another. *)
Lemma supported_lower ext :
  ext ∈ supported_extensions -> str_lower ext = ext.
Proof.
  unfold supported_extensions. rewrite !elem_of_cons, elem_of_nil.
  intros [->|[->|[->|[]]]]; reflexivity.
Qed.

Lemma supported_tails e1 e2 :
  e1 ∈ supported_extensions -> e2 ∈ supported_extensions ->
  endswith e1 e2 = true -> e1 = e2.
Proof.
  unfold supported_extensions. rewrite !elem_of_cons, !elem_of_nil.
  intros [->|[->|[->|[]]]] [->|[->|[->|[]]]]; vm_compute; congruence.
Qed.

(** A name that ends in a case variant of a supported extension ends in
    no supported extension. *)
Lemma case_variant_unsupported name ext v t :
  ext ∈ supported_extensions -> t ∈ supported_extensions ->
  case_variant ext v ->
  endswith name v = true -> endswith name t = false.
Proof.
  intros Hext Ht [Hlow Hne] [p ->]%endswith_spec.
  apply not_true_is_false. intros [q Hq]%endswith_spec.
  apply str_app_eq_tails in Hq as [[r Hr]|[r Hr]].
  - (* t = r ++ v *)
    pose proof (f_equal str_lower Hr) as Hl.
    rewrite str_lower_app, Hlow, (supported_lower t Ht) in Hl.
    assert (t = ext) as ->.
    { apply supported_tails; [done..|]. apply endswith_spec. eauto. }
    symmetry in Hl. apply str_app_eq_self in Hl.
    destruct r; [|done]. apply Hne. exact (eq_sym Hr).
  - (* v = r ++ t *)
    pose proof (f_equal str_lower Hr) as Hl.
    rewrite str_lower_app, Hlow, (supported_lower t Ht) in Hl.
    assert (ext = t) as ->.
    { apply supported_tails; [done..|]. apply endswith_spec. eauto. }
    symmetry in Hl. apply str_app_eq_self in Hl.
    destruct r; [|done]. apply Hne. exact Hr.
Qed.

(** ** Column classifier: proofs *)

Lemma rbind_ok {A B} (r : Result A) (k : A -> Result B) a :
  r = Ok a -> (r ≫= k) = k a.
Proof. intros ->. reflexivity. Qed.

Lemma getitem_elem_of df col s :
  unique_labels df -> (col, s) ∈ df -> getitem df col = Ok s.
Proof.
  unfold unique_labels, columns.
  induction df as [|[name t] df IH]; intros Hnd Hin.
  - by apply elem_of_nil in Hin.
  - simpl in *. apply NoDup_cons in Hnd as [Hname Hnd].
    apply elem_of_cons in Hin as [Heq|Hin].
    + simplify_eq. by rewrite decide_True.
    + rewrite decide_False; [by apply IH|].
      intros ->. apply Hname. apply list_elem_of_fmap. by exists (col, s).
Qed.


(** One iteration of the classifier on a column whose series is known. *)
Lemma analyze_col_known df acc col s :
  getitem df col = Ok s ->
  analyze_col df acc col =
  Ok (mkBuckets
        (numeric_cols acc ++ (if decide (spec_numeric s) then [col] else []))
        (categorical_cols acc
           ++ (if decide (spec_categorical s) then [col] else []))
        (datetime_cols acc
           ++ (if decide (spec_datetime s) then [col] else []))).
Proof.
  intros Hget. unfold analyze_col. rewrite !Hget. simpl.
  destruct (decide (spec_numeric s)) as [Hn|Hn],
           (decide (spec_categorical s)) as [Hc|Hc],
           (decide (spec_datetime s)) as [Hd|Hd];
    unfold spec_numeric, spec_categorical, spec_datetime in *;
    destruct (is_numeric_dtype s), (is_datetime64_any_dtype s);
    simpl in *; try (exfalso; tauto);
    destruct (Nat.leb_spec (nunique s) 20);
    try (exfalso; intuition lia);
    destruct acc; simpl; by rewrite ?app_nil_r.
Qed.

Lemma labels_where_cons P `{!∀ s, Decision (P s)} col s df :
  labels_where P ((col, s) :: df) =
  (if decide (P s) then [col] else []) ++ labels_where P df.
Proof.
  unfold labels_where. cbn. by destruct (decide (P s)).
Qed.

Lemma analyze_fold df rest acc :
  (forall col s, (col, s) ∈ rest -> getitem df col = Ok s) ->
  for_fold (analyze_col df) (columns rest) acc =
  Ok (mkBuckets (numeric_cols acc ++ labels_where spec_numeric rest)
                (categorical_cols acc ++ labels_where spec_categorical rest)
                (datetime_cols acc ++ labels_where spec_datetime rest)).
Proof.
  revert acc. induction rest as [|[col s] rest IH]; intros acc Hget.
  - simpl. destruct acc. unfold labels_where. simpl. by rewrite !app_nil_r.
  - simpl. rewrite (analyze_col_known df acc col s) by (apply Hget; left).
    simpl. rewrite IH by (intros; apply Hget; by right).
    simpl. rewrite !labels_where_cons. by rewrite <- !app_assoc.
Qed.

Lemma analyze_data_filters df :
  unique_labels df ->
  analyze_data df =
  Ok (mkBuckets (labels_where spec_numeric df)
                (labels_where spec_categorical df)
                (labels_where spec_datetime df)).
Proof.
  intros Hu. unfold analyze_data. rewrite analyze_fold; [done|].
  intros. by apply getitem_elem_of.
Qed.

(** *** Membership in the buckets *)

Lemma elem_of_labels_where P `{!∀ s, Decision (P s)} df col s :
  unique_labels df -> (col, s) ∈ df ->
  col ∈ labels_where P df <-> P s.
Proof.
  intros Hu Hin. unfold labels_where. rewrite list_elem_of_fmap. split.
  - intros ([col' s'] & -> & [HP Hin']%list_elem_of_filter). simpl in *.
    pose proof (getitem_elem_of _ _ _ Hu Hin) as H1.
    pose proof (getitem_elem_of _ _ _ Hu Hin') as H2.
    congruence.
  - intros HP. exists (col, s). split; [done|].
    by apply list_elem_of_filter.
Qed.

Lemma labels_where_sublist P `{!∀ s, Decision (P s)} df :
  labels_where P df `sublist_of` columns df.
Proof. apply fmap_sublist, sublist_filter. Qed.

Lemma labels_where_columns P `{!∀ s, Decision (P s)} df col :
  col ∈ labels_where P df -> exists s, (col, s) ∈ df ∧ P s.
Proof.
  unfold labels_where. rewrite list_elem_of_fmap.
  intros ([col' s] & -> & [HP Hin]%list_elem_of_filter). eauto.
Qed.

Lemma spec_buckets_exclusive s :
  ¬ (spec_numeric s ∧ spec_categorical s)
  ∧ ¬ (spec_numeric s ∧ spec_datetime s)
  ∧ ¬ (spec_categorical s ∧ spec_datetime s).
Proof. unfold spec_numeric, spec_categorical, spec_datetime. tauto. Qed.

Lemma buckets_NoDup df :
  unique_labels df ->
  NoDup (labels_where spec_numeric df ++ labels_where spec_categorical df
         ++ labels_where spec_datetime df).
Proof.
  intros Hu.
  assert (forall P `{!∀ s, Decision (P s)}, NoDup (labels_where P df)) as Hnd.
  { intros. eapply sublist_NoDup; [exact Hu|]. apply labels_where_sublist. }
  pose proof spec_buckets_exclusive as Hex.
  rewrite !NoDup_app. repeat split; try apply Hnd.
  - intros col (s & Hin & Hn)%labels_where_columns.
    rewrite elem_of_app, !(elem_of_labels_where _ df col s) by done.
    specialize (Hex s). tauto.
  - intros col (s & Hin & Hn)%labels_where_columns.
    rewrite !(elem_of_labels_where _ df col s) by done.
    specialize (Hex s). tauto.
Qed.

(** C1.  For every dataset (with pairwise distinct labels, as the loaders
    produce) the classifier returns, and for every column: it is listed
    as numeric exactly when its dtype is numeric; otherwise as datetime
    exactly when its dtype is a date/time type; otherwise as categorical
    exactly when it has at most 20 distinct non-null values.  Each of the
    three sequences is the columns of its class in column order. *)
Theorem analyze_data_classification df :
  unique_labels df ->
  exists b,
    analyze_data df = Ok b
    ∧ numeric_cols b = labels_where spec_numeric df
    ∧ datetime_cols b = labels_where spec_datetime df
    ∧ categorical_cols b = labels_where spec_categorical df
    ∧ forall col s, (col, s) ∈ df ->
        (col ∈ numeric_cols b <-> is_numeric_dtype s)
        ∧ (col ∈ datetime_cols b <->
             ¬ is_numeric_dtype s ∧ is_datetime64_any_dtype s)
        ∧ (col ∈ categorical_cols b <->
             ¬ is_numeric_dtype s ∧ ¬ is_datetime64_any_dtype s
             ∧ length (remove_dups (dropna s)) ≤ 20).
Proof.
  intros Hu. eexists. split; [by apply analyze_data_filters|]. simpl.
  do 3 (split; [done|]). intros col s Hin.
  split; [|split].
  - by apply (elem_of_labels_where spec_numeric).
  - by apply (elem_of_labels_where spec_datetime).
  - by apply (elem_of_labels_where spec_categorical).
Qed.

Lemma analyze_data_classification_witness :
  unique_labels sample_df
  ∧ exists b,
      analyze_data sample_df = Ok b
      ∧ numeric_cols b = ["age"; "income"]
      ∧ datetime_cols b = ["signup_date"]
      ∧ categorical_cols b = ["city"].
Proof.
  assert (unique_labels sample_df) as Hu
    by (apply (bool_decide_unpack _); vm_compute; exact I).
  split; [exact Hu|].
  destruct (analyze_data_classification sample_df Hu)
    as (b & Hb & Hn & Hd & Hc & _).
  exists b. rewrite Hn, Hd, Hc. repeat split; [exact Hb|..]; reflexivity.
Defined.

(** C2.  For every dataset no label occurs twice across the three
    sequences, so every column is in at most one of them; and a column
    that is neither numeric nor datetime and has more than 20 distinct
    non-null values is in none. *)
Theorem analyze_data_buckets_disjoint df :
  unique_labels df ->
  exists b,
    analyze_data df = Ok b
    ∧ NoDup (numeric_cols b ++ categorical_cols b ++ datetime_cols b)
    ∧ (forall col,
         ¬ (col ∈ numeric_cols b ∧ col ∈ categorical_cols b)
         ∧ ¬ (col ∈ numeric_cols b ∧ col ∈ datetime_cols b)
         ∧ ¬ (col ∈ categorical_cols b ∧ col ∈ datetime_cols b))
    ∧ forall col s, (col, s) ∈ df ->
        ¬ is_numeric_dtype s -> ¬ is_datetime64_any_dtype s ->
        20 < nunique s ->
        col ∉ numeric_cols b ++ categorical_cols b ++ datetime_cols b.
Proof.
  intros Hu. eexists. split; [by apply analyze_data_filters|]. simpl.
  pose proof (buckets_NoDup df Hu) as Hnd.
  split; [exact Hnd|]. split.
  - intros col. apply NoDup_app in Hnd as (_ & H1 & Hnd).
    apply NoDup_app in Hnd as (_ & H2 & _).
    repeat split; intros [Ha Hb].
    + apply (H1 col Ha). apply elem_of_app. by left.
    + apply (H1 col Ha). apply elem_of_app. by right.
    + by apply (H2 col Ha).
  - intros col s Hin Hn Hd Hu20. rewrite !elem_of_app.
    rewrite !(elem_of_labels_where _ df col s) by done.
    unfold spec_numeric, spec_categorical, spec_datetime.
    intros [?|[(_ & _ & ?)|[_ ?]]]; [done|lia|done].
Qed.

Lemma analyze_data_buckets_disjoint_witness :
  unique_labels sample_df
  ∧ ("notes", sample_notes) ∈ sample_df
  ∧ 20 < nunique sample_notes
  ∧ exists b,
      analyze_data sample_df = Ok b
      ∧ NoDup (numeric_cols b ++ categorical_cols b ++ datetime_cols b)
      ∧ "notes" ∉ numeric_cols b ++ categorical_cols b ++ datetime_cols b.
Proof.
  assert (unique_labels sample_df) as Hu
    by (apply (bool_decide_unpack _); vm_compute; exact I).
  assert (("notes", sample_notes) ∈ sample_df) as Hin
    by (apply (bool_decide_unpack _); vm_compute; exact I).
  assert (20 < nunique sample_notes) as H20 by (vm_compute; lia).
  do 3 (split; [done|]).
  destruct (analyze_data_buckets_disjoint sample_df Hu)
    as (b & Hb & Hnd & _ & Hout).
  exists b. split; [exact Hb|]. split; [exact Hnd|].
  apply (Hout "notes" sample_notes Hin); [exact id|exact id|exact H20].
Defined.


(** *** Every combination of counts is the classification of some table *)


Lemma labels_where_app P `{!∀ s, Decision (P s)} (df1 df2 : DataFrame) :
  labels_where P (df1 ++ df2) = labels_where P df1 ++ labels_where P df2.
Proof. unfold labels_where. by rewrite filter_app, fmap_app. Qed.





(** ** Visualization generator: proofs *)



(** *** The emitting tail *)




(** *** The plotting loops *)







(** *** The count of the specification *)






Lemma for_fold_skip {A S} (xs : list A) (st : S) :
  for_fold (fun st _ => Ok st) xs st = Ok st.
Proof. induction xs; simpl; auto. Qed.



(** *** What each plotting call produces *)



























(** *** Value counts *)

Global Instance at_least_as_frequent_trans s :
  Transitive (at_least_as_frequent s).
Proof. unfold at_least_as_frequent. intros x y z ??. lia. Qed.

Global Instance at_least_as_frequent_total s : Total (at_least_as_frequent s).
Proof. unfold at_least_as_frequent. intros x y. lia. Qed.






(** *** No division by zero *)

Lemma bind_no_zde {A B} (r : Result A) (k : A -> Result B) :
  r ≠ Raise ZeroDivisionError ->
  (forall a, k a ≠ Raise ZeroDivisionError) ->
  r ≫= k ≠ Raise ZeroDivisionError.
Proof. destruct r; simpl; [auto|]. intros H _ [= ->]. by apply H. Qed.

Lemma for_fold_no_zde {A S} (body : S -> A -> Result S) xs st :
  (forall st x, body st x ≠ Raise ZeroDivisionError) ->
  for_fold body xs st ≠ Raise ZeroDivisionError.
Proof.
  intros Hbody. revert st. induction xs as [|x xs IH]; intros st; [done|].
  simpl. apply bind_no_zde; auto.
Qed.

Lemma getitem_no_zde df col : getitem df col ≠ Raise ZeroDivisionError.
Proof.
  induction df as [|[name s] df IH]; simpl; [done|]. by case_decide.
Qed.

Lemma getitems_no_zde df cols : getitems df cols ≠ Raise ZeroDivisionError.
Proof.
  induction cols as [|col cols IH]; simpl; [done|].
  apply bind_no_zde; [apply getitem_no_zde|]. intros s.
  apply bind_no_zde; [exact IH|done].
Qed.

Lemma emit_no_zde total a st :
  total ≠ 0 -> emit total a st ≠ Raise ZeroDivisionError.
Proof.
  intros Hne. unfold emit, progress.
  destruct (Nat.eqb_spec total 0); [done|].
  by destruct (total <? plot_counter st + 1).
Qed.

Lemma plot_each_no_zde total mk cols st :
  total ≠ 0 ->
  (forall col, mk col ≠ Raise ZeroDivisionError) ->
  plot_each total mk cols st ≠ Raise ZeroDivisionError.
Proof.
  intros Hne Hmk. apply for_fold_no_zde. intros st' col.
  apply bind_no_zde; [apply Hmk|]. intros a. by apply emit_no_zde.
Qed.

Lemma histogram_of_no_zde df col :
  histogram_of df col ≠ Raise ZeroDivisionError.
Proof. apply bind_no_zde; [apply getitem_no_zde|done]. Qed.

Lemma boxplot_of_no_zde df col : boxplot_of df col ≠ Raise ZeroDivisionError.
Proof. apply bind_no_zde; [apply getitem_no_zde|done]. Qed.

Lemma barplot_of_no_zde df col : barplot_of df col ≠ Raise ZeroDivisionError.
Proof. apply bind_no_zde; [apply getitem_no_zde|done]. Qed.

Lemma heatmap_of_no_zde df n : heatmap_of df n ≠ Raise ZeroDivisionError.
Proof. apply bind_no_zde; [apply getitems_no_zde|done]. Qed.

Lemma pairplot_of_no_zde df n : pairplot_of df n ≠ Raise ZeroDivisionError.
Proof. apply bind_no_zde; [apply getitems_no_zde|done]. Qed.

Lemma timeseries_of_no_zde df num_col date_col :
  timeseries_of df num_col date_col ≠ Raise ZeroDivisionError.
Proof.
  apply bind_no_zde.
  - apply bind_no_zde; [apply getitem_no_zde|done].
  - intros indexed. apply bind_no_zde; [apply getitem_no_zde|done].
Qed.

Lemma first_of_no_zde cols : first_of cols ≠ Raise ZeroDivisionError.
Proof. by destruct cols. Qed.

(** A zero total leaves nothing to plot in the first three loops. *)
Lemma total_plots_zero n c d : total_plots n c d = 0 -> n = [] ∧ c = [].
Proof.
  unfold total_plots. destruct n as [|x n'], c as [|y c']; simpl; try done;
    destruct (Nat.ltb_spec 1 (S (length n'))); lia.
Qed.

(** With no numeric and no categorical column every loop body is skipped. *)
Lemma generate_state_nothing df d :
  generate_state df [] [] d =
  Ok (mkGenState [] 0
        [UiProgressBar; UiPlaceholder; UiProgressEmpty; UiStatusEmpty]).
Proof. unfold generate_state. simpl. by rewrite for_fold_skip. Qed.

(** C10.  The generator never raises a division by zero, for any
    arguments: a zero total means that no loop body or branch that
    reports progress runs.  In particular with three empty buckets it
    reports no progress and returns the empty collection. *)
Theorem progress_never_divides_by_zero :
  (forall df n c d, generate_state df n c d ≠ Raise ZeroDivisionError)
  ∧ (forall df n c d,
       total_plots n c d = 0 ->
       generate_state df n c d =
       Ok (mkGenState [] 0
             [UiProgressBar; UiPlaceholder; UiProgressEmpty; UiStatusEmpty]))
  ∧ (forall df,
       generate_state df [] [] [] =
       Ok (mkGenState [] 0
             [UiProgressBar; UiPlaceholder; UiProgressEmpty; UiStatusEmpty])
       ∧ generate_visualizations df [] [] [] = Ok []).
Proof.
  assert (forall df n c d,
    total_plots n c d = 0 ->
    generate_state df n c d =
    Ok (mkGenState [] 0
          [UiProgressBar; UiPlaceholder; UiProgressEmpty; UiStatusEmpty]))
    as Hzero.
  { intros df n c d [-> ->]%total_plots_zero. apply generate_state_nothing. }
  split; [|split; [exact Hzero|]].
  - intros df n c d.
    destruct (decide (total_plots n c d = 0)) as [H0|Hne].
    { by rewrite Hzero. }
    unfold generate_state.
    repeat (apply bind_no_zde; [|intros ?]); try done.
    + by apply plot_each_no_zde, histogram_of_no_zde.
    + by apply plot_each_no_zde, boxplot_of_no_zde.
    + by apply plot_each_no_zde, barplot_of_no_zde.
    + destruct (1 <? length n); [|done].
      apply bind_no_zde; [apply heatmap_of_no_zde|].
      intros ?. by apply emit_no_zde.
    + destruct (1 <? length n); [|done].
      apply bind_no_zde; [apply pairplot_of_no_zde|].
      intros ?. by apply emit_no_zde.
    + apply for_fold_no_zde. intros st date_col.
      destruct (0 <? length n); [|done].
      apply bind_no_zde; [apply first_of_no_zde|]. intros num_col.
      apply bind_no_zde; [apply timeseries_of_no_zde|].
      intros ?. by apply emit_no_zde.
  - intros df. split; [apply generate_state_nothing|].
    unfold generate_visualizations. by rewrite generate_state_nothing.
Qed.

Lemma progress_never_divides_by_zero_witness :
  total_plots [] [] ["signup_date"] = 0
  ∧ generate_state dates_only_df [] [] ["signup_date"] =
    Ok (mkGenState [] 0
          [UiProgressBar; UiPlaceholder; UiProgressEmpty; UiStatusEmpty]).
Proof.
  split; [reflexivity|].
  exact (proj1 (proj2 progress_never_divides_by_zero)
           dates_only_df [] [] ["signup_date"] eq_refl).
Defined.

(** The guard is needed: reporting against a zero total does raise. *)
Example emit_zero_total_raises a st :
  emit 0 a st = Raise ZeroDivisionError.
Proof. reflexivity. Qed.

(** ** Data loader: proofs *)

Section LoaderFacts.
Variable read_csv read_excel : UploadedFile -> Result DataFrame.

(** C6.  A name ending in [.csv] goes to the CSV parser, a name ending
    in [.xlsx] or [.xls] to the spreadsheet parser, and the parsed table
    is returned; any other name shows the unsupported-format message and
    returns no dataset; an exception of the parser is caught, shown with
    its text, and no dataset is returned.  The loader never raises. *)
Theorem load_data_dispatch (f : UploadedFile) :
  (endswith (file_name f) ".csv" = true ->
     (forall df, read_csv f = Ok df -> load_data read_csv read_excel f = Ok (Some df, []))
     ∧ (forall e, read_csv f = Raise e ->
          load_data read_csv read_excel f =
          Ok (None, [StError ("Error loading file: " +:+ exn_str e)])))
  ∧ (endswith (file_name f) ".csv" = false ->
     endswith (file_name f) ".xlsx" = true
     ∨ endswith (file_name f) ".xls" = true ->
     (forall df, read_excel f = Ok df -> load_data read_csv read_excel f = Ok (Some df, []))
     ∧ (forall e, read_excel f = Raise e ->
          load_data read_csv read_excel f =
          Ok (None, [StError ("Error loading file: " +:+ exn_str e)])))
  ∧ (endswith (file_name f) ".csv" = false ->
     endswith (file_name f) ".xlsx" = false ->
     endswith (file_name f) ".xls" = false ->
     load_data read_csv read_excel f = Ok (None, [StError unsupported_message]))
  ∧ exists r, load_data read_csv read_excel f = Ok r.
Proof.
  unfold load_data. split; [|split; [|split]].
  - intros Hcsv. rewrite Hcsv. split.
    + intros df Hdf. by rewrite Hdf.
    + intros e He. by rewrite He.
  - intros Hcsv Hx. rewrite Hcsv.
    replace (_ || _) with true
      by (destruct Hx as [-> | ->]; by rewrite ?orb_true_r).
    split.
    + intros df Hdf. by rewrite Hdf.
    + intros e He. by rewrite He.
  - intros -> -> ->. done.
  - destruct (endswith (file_name f) ".csv").
    { destruct (read_csv f); simpl; eauto. }
    destruct (_ || _); [|simpl; eauto].
    destruct (read_excel f); simpl; eauto.
Qed.

(** C9.  The dispatch is case sensitive: a name that ends in an upper
    or mixed case variant of a supported extension takes the
    unsupported-format branch and no dataset is returned. *)
Theorem load_data_case_sensitive (f : UploadedFile) (ext v : string) :
  ext ∈ supported_extensions ->
  case_variant ext v ->
  endswith (file_name f) v = true ->
  load_data read_csv read_excel f = Ok (None, [StError unsupported_message]).
Proof.
  intros Hext Hv Hends. unfold load_data.
  rewrite !(case_variant_unsupported (file_name f) ext v) by
    (try done; unfold supported_extensions; rewrite !elem_of_cons; auto).
  done.
Qed.
End LoaderFacts.

Lemma load_data_dispatch_witness :
  endswith "data.csv" ".csv" = true
  ∧ sample_read_csv (mkUploadedFile "data.csv" "age,city") = Ok sample_df
  ∧ load_data sample_read_csv sample_read_excel
      (mkUploadedFile "data.csv" "age,city") = Ok (Some sample_df, [])
  ∧ load_data sample_read_csv sample_read_excel
      (mkUploadedFile "data.csv" "") =
    Ok (None, [StError "Error loading file: No columns to parse from file"])
  ∧ load_data sample_read_csv sample_read_excel
      (mkUploadedFile "book.xlsx" "PK") =
    Ok (None, [StError
      "Error loading file: Excel file format cannot be determined"])
  ∧ load_data sample_read_csv sample_read_excel
      (mkUploadedFile "data.txt" "age,city") =
    Ok (None, [StError unsupported_message]).
Proof.
  split; [reflexivity|]. split; [reflexivity|].
  split; [|split; [|split]].
  - exact (proj1 (proj1 (load_data_dispatch sample_read_csv sample_read_excel
                           (mkUploadedFile "data.csv" "age,city")) eq_refl)
                 sample_df eq_refl).
  - exact (proj2 (proj1 (load_data_dispatch sample_read_csv sample_read_excel
                           (mkUploadedFile "data.csv" "")) eq_refl)
                 (LibraryError "No columns to parse from file") eq_refl).
  - exact (proj2 (proj1 (proj2 (load_data_dispatch sample_read_csv
                                  sample_read_excel
                                  (mkUploadedFile "book.xlsx" "PK")))
                        eq_refl (or_introl eq_refl))
                 (LibraryError "Excel file format cannot be determined")
                 eq_refl).
  - exact (proj1 (proj2 (proj2 (load_data_dispatch sample_read_csv
                                  sample_read_excel
                                  (mkUploadedFile "data.txt" "age,city"))))
                 eq_refl eq_refl eq_refl).
Defined.

Lemma load_data_case_sensitive_witness :
  ".csv" ∈ supported_extensions
  ∧ case_variant ".csv" ".CSV"
  ∧ endswith "data.CSV" ".CSV" = true
  ∧ load_data sample_read_csv sample_read_excel
      (mkUploadedFile "data.CSV" "age,city") =
    Ok (None, [StError unsupported_message]).
Proof.
  assert (".csv" ∈ supported_extensions) as Hext
    by (apply (bool_decide_unpack _); vm_compute; exact I).
  assert (case_variant ".csv" ".CSV") as Hv by (split; [reflexivity|discriminate]).
  do 3 (split; [done|]).
  by apply (load_data_case_sensitive sample_read_csv sample_read_excel
              (mkUploadedFile "data.CSV" "age,city") ".csv" ".CSV").
Defined.

(** ** Archive builder: proofs *)

(** *** Entry names *)

(** A decimal numeral followed by an underscore determines the numeral. *)
Lemma string_of_uint_delimited d1 d2 r1 r2 :
  NilEmpty.string_of_uint d1 +:+ String "_" r1
  = NilEmpty.string_of_uint d2 +:+ String "_" r2 ->
  d1 = d2.
Proof.
  revert d2. induction d1 as [|d1 IH|d1 IH|d1 IH|d1 IH|d1 IH|d1 IH|d1 IH|d1 IH
                              |d1 IH|d1 IH];
    intros [|d2|d2|d2|d2|d2|d2|d2|d2|d2|d2]; simpl;
    rewrite ?str_app_cons, ?str_app_nil_l; intros Heq;
    try discriminate Heq; try reflexivity;
    injection Heq as Heq; f_equal; by apply IH.
Qed.

Lemma entry_name_index i j k1 k2 col1 col2 :
  entry_name i k1 col1 = entry_name j k2 col2 -> i = j.
Proof.
  unfold entry_name, str_of_nat. intros Heq.
  apply (inj (String.app "plot_")) in Heq.
  rewrite !(str_app_cons "_" "") , !str_app_nil_l in Heq.
  apply string_of_uint_delimited, Unsigned.to_uint_inj in Heq. lia.
Qed.

Section ArchiveFacts.
Variable savefig : Figure -> string.



End ArchiveFacts.

(** *** Counting tags *)







Section CountFacts.
Variable savefig : Figure -> string.




End CountFacts.




(** * Further properties *)

(** ** Visualization generator: errors, progress, contents *)

(** *** Which exceptions the generator can raise *)














(** *** The first missing label *)








(** *** The progress reports of a run *)








(** *** The charts of the numeric columns *)






(** *** The two charts over all numeric columns *)





(** ** Column classifier: counts and composition *)

(** *** The metrics of the classifier *)

Lemma bucket_sizes (df : DataFrame) :
  length (labels_where spec_numeric df)
  + length (labels_where spec_categorical df)
  + length (labels_where spec_datetime df)
  + length (filter (fun p => high_cardinality p.2) df)
  = length df.
Proof.
  induction df as [|[col s] df IH]; [done|].
  rewrite !labels_where_cons, filter_cons. simpl.
  unfold spec_numeric, spec_categorical, spec_datetime, high_cardinality in *.
  repeat case_decide; simpl; rewrite ?length_app; simpl;
    destruct (is_numeric_dtype s), (is_datetime64_any_dtype s);
    simpl in *; try tauto; try lia;
    destruct (decide (nunique s ≤ 20)); exfalso; intuition lia.
Qed.

(** X7.  The three metrics add up to the number of columns less the
    columns the classifier drops, the non-numeric, non-datetime columns
    with more than 20 distinct non-null values. *)
Theorem metrics_count_all_but_high_cardinality df :
  unique_labels df ->
  exists b,
    analyze_data df = Ok b
    ∧ length (numeric_cols b) + length (categorical_cols b)
      + length (datetime_cols b)
      + length (filter (fun p => high_cardinality p.2) df)
      = length (columns df).
Proof.
  intros Hu. eexists. split; [by apply analyze_data_filters|]. simpl.
  unfold columns. rewrite length_fmap. apply bucket_sizes.
Qed.

Lemma metrics_count_all_but_high_cardinality_witness :
  unique_labels sample_df
  ∧ exists b,
      analyze_data sample_df = Ok b
      ∧ length (numeric_cols b) + length (categorical_cols b)
        + length (datetime_cols b) + 1 = 5.
Proof.
  assert (unique_labels sample_df) as Hu
    by (apply (bool_decide_unpack _); vm_compute; exact I).
  split; [exact Hu|].
  destruct (metrics_count_all_but_high_cardinality sample_df Hu)
    as (b & Hb & Hsum).
  exists b. split; [exact Hb|]. exact Hsum.
Defined.

(** X8.  Classification is column by column: the buckets of a frame
    extended by further columns are the buckets of the frame followed by
    the buckets of the new columns. *)
Theorem analyze_data_app df1 df2 :
  unique_labels (df1 ++ df2) ->
  exists b1 b2 b,
    analyze_data df1 = Ok b1
    ∧ analyze_data df2 = Ok b2
    ∧ analyze_data (df1 ++ df2) = Ok b
    ∧ numeric_cols b = numeric_cols b1 ++ numeric_cols b2
    ∧ categorical_cols b = categorical_cols b1 ++ categorical_cols b2
    ∧ datetime_cols b = datetime_cols b1 ++ datetime_cols b2.
Proof.
  intros Hu.
  assert (unique_labels df1 ∧ unique_labels df2) as [Hu1 Hu2].
  { unfold unique_labels, columns in *. rewrite fmap_app in Hu.
    apply NoDup_app in Hu as (? & _ & ?). done. }
  eexists _, _, _.
  split; [by apply analyze_data_filters|].
  split; [by apply analyze_data_filters|].
  split; [by apply analyze_data_filters|].
  simpl. by rewrite !labels_where_app.
Qed.

Lemma analyze_data_app_witness :
  unique_labels (dates_only_df ++ [("age", sample_age)])
  ∧ exists b,
      analyze_data (dates_only_df ++ [("age", sample_age)]) = Ok b
      ∧ numeric_cols b = ["age"]
      ∧ datetime_cols b = ["signup_date"].
Proof.
  assert (unique_labels (dates_only_df ++ [("age", sample_age)])) as Hu
    by (apply (bool_decide_unpack _); vm_compute; exact I).
  split; [exact Hu|].
  destruct (analyze_data_app dates_only_df [("age", sample_age)] Hu)
    as (b1 & b2 & b & H1 & H2 & Hb & Hn & _ & Hd).
  exists b. split; [exact Hb|]. rewrite Hn, Hd.
  vm_compute in H1, H2. injection H1 as <-. injection H2 as <-. done.
Defined.

(** ** Data loader and entry names *)

(** *** What the loader hands back *)

(** The loader hands back a dataset and shows nothing, or hands back
    nothing and shows one message. *)
Lemma load_data_dataset_or_message
    (read_csv read_excel : UploadedFile -> Result DataFrame)
    (f : UploadedFile) :
  (exists df,
     load_data read_csv read_excel f = Ok (Some df, [])
     ∧ (read_csv f = Ok df ∨ read_excel f = Ok df))
  ∨ (exists text,
       load_data read_csv read_excel f = Ok (None, [StError text])).
Proof.
  unfold load_data.
  destruct (endswith (file_name f) ".csv").
  { destruct (read_csv f) as [df|e] eqn:Hcsv; simpl; [left|right]; eauto. }
  destruct (_ || _); [|right; simpl; eauto].
  destruct (read_excel f) as [df|e] eqn:Hx; simpl; [left|right]; eauto.
Qed.

(** *** The shape of entry names *)

Lemma free_of_app c s t :
  free_of c (s +:+ t) = free_of c s && free_of c t.
Proof.
  induction s as [|d s IH]; [done|]. rewrite str_app_cons. simpl.
  by rewrite IH, andb_assoc.
Qed.

Lemma string_of_uint_no_space d :
  free_of " " (NilEmpty.string_of_uint d) = true.
Proof. induction d; simpl; auto. Qed.

Lemma replace_char_free old new s :
  new ≠ old -> free_of old (replace_char old new s) = true.
Proof.
  intros Hne. induction s as [|c s IH]; [done|]. simpl. rewrite IH, andb_true_r.
  apply negb_true_iff, Ascii.eqb_neq.
  destruct (Ascii.eqb_spec c old); congruence.
Qed.

Lemma replace_char_length old new s :
  String.length (replace_char old new s) = String.length s.
Proof. induction s; simpl; auto. Qed.

Lemma kind_tag_no_space k : free_of " " (kind_tag k) = true.
Proof. by destruct k. Qed.

(** X10.  Every entry name starts with [plot_], ends with [.png] and
    contains no space. *)
Theorem entry_name_shape i k col :
  startswith (entry_name i k col) "plot_" = true
  ∧ endswith (entry_name i k col) ".png" = true
  ∧ free_of " " (entry_name i k col) = true.
Proof.
  unfold entry_name. split; [|split].
  - rewrite !str_app_cons. reflexivity.
  - apply endswith_spec. eexists. rewrite <- !str_app_assoc. reflexivity.
  - rewrite !free_of_app. unfold str_of_nat.
    rewrite string_of_uint_no_space, kind_tag_no_space,
            replace_char_free by done.
    reflexivity.
Qed.

(** *** Reading an entry name back *)

Lemma str_app_inv_tail s1 s2 t : s1 +:+ t = s2 +:+ t -> s1 = s2.
Proof.
  revert s2. induction s1 as [|c s1 IH]; intros s2 Heq.
  - symmetry in Heq. apply str_app_eq_self in Heq. done.
  - destruct s2 as [|d s2].
    + apply str_app_eq_self in Heq. done.
    + rewrite !str_app_cons in Heq. injection Heq as -> Heq.
      f_equal. by apply IH.
Qed.

Lemma kind_tag_delimited k1 k2 r1 r2 :
  kind_tag k1 +:+ String "_" r1 = kind_tag k2 +:+ String "_" r2 ->
  k1 = k2 ∧ r1 = r2.
Proof.
  destruct k1, k2; simpl; rewrite !str_app_cons, !str_app_nil_l;
    intros Heq; try discriminate Heq; by injection Heq.
Qed.

(** X11.  An entry name determines the position and the kind of its
    artifact, and its label up to the replacement of spaces. *)
Theorem entry_name_inj i j k1 k2 col1 col2 :
  entry_name i k1 col1 = entry_name j k2 col2 ->
  i = j ∧ k1 = k2 ∧ replace_char " " "_" col1 = replace_char " " "_" col2.
Proof.
  intros Heq. pose proof (entry_name_index _ _ _ _ _ _ Heq) as <-.
  split; [done|]. unfold entry_name in Heq.
  apply (inj (String.app "plot_")) in Heq.
  apply (inj (String.app (str_of_nat (i + 1)))) in Heq.
  apply (inj (String.app "_")) in Heq.
  apply (kind_tag_delimited k1 k2 (replace_char " " "_" col1 +:+ ".png")
           (replace_char " " "_" col2 +:+ ".png")) in Heq as [-> Heq].
  split; [done|].
  by apply str_app_inv_tail in Heq.
Qed.

Lemma entry_name_inj_witness :
  entry_name 1 boxplot "unit price" = entry_name 1 boxplot "unit_price"
  ∧ replace_char " " "_" "unit price" = replace_char " " "_" "unit_price".
Proof.
  assert (entry_name 1 boxplot "unit price" = entry_name 1 boxplot "unit_price")
    as Heq by reflexivity.
  split; [exact Heq|].
  exact (proj2 (proj2 (entry_name_inj _ _ _ _ _ _ Heq))).
Defined.

(** *** The extensions exclude one another *)

(** X9.  A file name ends in at most one of the supported extensions,
    so the order of the tests in the loader does not matter. *)
Theorem supported_extension_unique name e1 e2 :
  e1 ∈ supported_extensions -> e2 ∈ supported_extensions ->
  endswith name e1 = true -> endswith name e2 = true -> e1 = e2.
Proof.
  intros H1 H2 [p ->]%endswith_spec [q Hq]%endswith_spec.
  apply str_app_eq_tails in Hq as [[r Hr]|[r Hr]].
  - symmetry. apply supported_tails; [done..|]. apply endswith_spec. eauto.
  - apply supported_tails; [done..|]. apply endswith_spec. eauto.
Qed.

Lemma supported_extension_unique_witness :
  ".xls" ∈ supported_extensions
  ∧ ".xlsx" ∈ supported_extensions
  ∧ endswith "book.xls" ".xls" = true
  ∧ endswith "book.xls" ".xlsx" ≠ true.
Proof.
  assert (".xls" ∈ supported_extensions) as H1
    by (apply (bool_decide_unpack _); vm_compute; exact I).
  assert (".xlsx" ∈ supported_extensions) as H2
    by (apply (bool_decide_unpack _); vm_compute; exact I).
  do 3 (split; [done|]). intros Hends.
  discriminate (supported_extension_unique "book.xls" ".xls" ".xlsx"
                  H1 H2 eq_refl Hends).
Defined.

(** ** Display tabs *)

(** *** The three kind tabs *)

Lemma distribution_tab_from_artifacts i plots :
  (distribution_tab_from i plots).*2
  = filter (fun a => kind_in a ["histogram"; "boxplot"; "barplot"]) plots.
Proof.
  revert i. induction plots as [|a plots IH]; intros i; [done|].
  simpl. rewrite fmap_app, IH, filter_cons. by case_decide.
Qed.

(** Every kind belongs to exactly one of the three tabs. *)
Lemma kind_tab_cases (a : Artifact) :
  (kind_in a ["histogram"; "boxplot"; "barplot"]
   ∧ ¬ kind_in a ["heatmap"; "pairplot"]
   ∧ kind_tag (art_kind a) ≠ "timeseries")
  ∨ (¬ kind_in a ["histogram"; "boxplot"; "barplot"]
     ∧ kind_in a ["heatmap"; "pairplot"]
     ∧ kind_tag (art_kind a) ≠ "timeseries")
  ∨ (¬ kind_in a ["histogram"; "boxplot"; "barplot"]
     ∧ ¬ kind_in a ["heatmap"; "pairplot"]
     ∧ kind_tag (art_kind a) = "timeseries").
Proof.
  unfold kind_in. destruct a as [[k fig] label]. simpl.
  destruct k; simpl.
  1-3: left. 4-5: right; left. 6: right; right.
  all: repeat split; try (apply (bool_decide_unpack _); vm_compute; exact I).
Qed.

(** X13.  The "Distributions", "Relationships" and "Time Series" tabs
    together show every artifact of a collection exactly once. *)
Theorem tabs_partition_the_collection (plots : list Artifact) :
  (distribution_tab plots).*2 ++ relationship_tab plots ++ timeseries_tab plots
  ≡ₚ plots.
Proof.
  unfold distribution_tab, relationship_tab, timeseries_tab.
  rewrite distribution_tab_from_artifacts.
  induction plots as [|a plots IH]; [done|].
  rewrite !filter_cons.
  destruct (kind_tab_cases a) as [(H1 & H2 & H3)|[(H1 & H2 & H3)|(H1 & H2 & H3)]];
    destruct (decide (kind_in a ["histogram"; "boxplot"; "barplot"]));
    destruct (decide (kind_in a ["heatmap"; "pairplot"]));
    destruct (decide (kind_tag (art_kind a) = "timeseries"));
    try done.
  - apply Permutation_skip, IH.
  - rewrite <- app_comm_cons, <- Permutation_middle.
    apply Permutation_skip, IH.
  - rewrite app_assoc, <- Permutation_middle, <- app_assoc.
    apply Permutation_skip, IH.
Qed.

(** *** The tabs of a generated collection *)









(** ** Main block *)

(** *** The main block *)

Section AppFacts.
Variable read_csv read_excel : UploadedFile -> Result DataFrame.
Variable savefig : Figure -> string.



(** X16.  A page that shows an error shows that one message and
  nothing else; and the generator widgets, the tabs and the downloads
  appear only when a dataset was loaded and the button was pressed. *)
Theorem main_block_page_shape uploaded_file clicked page :
  main_block read_csv read_excel savefig uploaded_file clicked = Ok page ->
  (Exists is_error page -> exists text, page = [EvError text])
  ∧ (Exists is_result page ->
     clicked = true
     ∧ exists f df,
         uploaded_file = Some f
         ∧ load_data read_csv read_excel f = Ok (Some df, [])).
Proof.
  destruct uploaded_file as [f|]; simpl.
  2:{ intros [= <-]. split; intros Hex;
        repeat (apply Exists_cons in Hex as [[]|Hex]);
        by apply Exists_nil in Hex. }
  destruct (load_data_dataset_or_message read_csv read_excel f)
    as [(df & Hload & _)|(text & Hload)]; rewrite Hload; simpl.
  2:{ intros [= <-]. split; [eauto|]. intros Hex.
      repeat (apply Exists_cons in Hex as [[]|Hex]).
      by apply Exists_nil in Hex. }
  destruct (analyze_data df) as [b|e]; simpl; [|done].
  destruct clicked.
  - unfold results_page.
    destruct (generate_state _ _ _ _) as [st|e]; simpl; [|done].
    intros [= <-]. split; [|eauto].
    intros Hex. repeat (apply Exists_cons in Hex as [[]|Hex]).
    by apply Exists_nil in Hex.
  - intros [= <-]. split; intros Hex;
      repeat (apply Exists_cons in Hex as [[]|Hex]);
      by apply Exists_nil in Hex.
Qed.

End AppFacts.



Lemma main_block_page_shape_witness :
  main_block sample_read_csv sample_read_excel sample_savefig
    (Some (mkUploadedFile "data.txt" "age,city")) true
  = Ok [EvError unsupported_message]
  ∧ exists text, [EvError unsupported_message] = [EvError text].
Proof.
  assert (main_block sample_read_csv sample_read_excel sample_savefig
            (Some (mkUploadedFile "data.txt" "age,city")) true
          = Ok [EvError unsupported_message]) as Hrun by reflexivity.
  split; [exact Hrun|].
  apply (proj1 (main_block_page_shape sample_read_csv sample_read_excel
                  sample_savefig _ _ _ Hrun)).
  apply Exists_cons_hd. exact I.
Defined.


(** ** Generator and archive together *)

(** *** Datetime labels without a numeric column *)

(** X6.  Without a numeric column the datetime labels are never looked at:
    the run is the same as with no datetime label at all, even when some
    of them name no column. *)
Theorem datetime_ignored_without_numeric df c d :
  generate_state df [] c d = generate_state df [] c []
  ∧ generate_visualizations df [] c d = generate_visualizations df [] c [].
Proof.
  assert (generate_state df [] c d = generate_state df [] c []) as Heq.
  { unfold generate_state.
    replace (total_plots [] c d) with (total_plots [] c [])
      by (unfold total_plots; simpl; lia).
    simpl.
    match goal with |- context [plot_each ?t (barplot_of df) c ?st0] =>
      destruct (plot_each t (barplot_of df) c st0) as [st|e] end;
      simpl; [|done].
    by rewrite for_fold_skip. }
  split; [exact Heq|]. unfold generate_visualizations. by rewrite Heq.
Qed.

(** *** The report of a generated collection *)



